(** * api/generate.js: the Gemini relay endpoint

    A shallow embedding of [allowCors] and [handler] of [api/generate.js],
    the single serverless function of the repository, and the properties
    of its response for every request.

    JavaScript values are an inductive type with the language's truthiness;
    the [res] object, the outbound SDK calls and the console are one record
    threaded through a state-and-exception monad, so that each [res.setHeader],
    [res.status], [res.json], [res.end] of the source is one monadic step and
    a JavaScript [throw] is a completion of its own.  Strings are the UTF-8
    bytes of the source literals. *)

From Stdlib Require Import ZArith Ascii String List.
From Stdlib Require Import Floats.SpecFloat.
From stdpp Require Import base option list strings gmap.

Set Default Proof Using "Type".

(** ** JavaScript values *)

(** The values a parsed request body, an [Error]'s extra properties and a
    JSON response are made of.  A number is an IEEE-754 binary64 in the
    specification format of the Standard Library; an object is its finite
    map of own properties. *)
#[local] Unset Elimination Schemes.
Inductive JsValue : Type :=
  | JUndefined
  | JNull
  | JBool (b : bool)
  | JNumber (x : spec_float)
  | JString (s : string)
  | JArray (items : list JsValue)
  | JObject (props : gmap string JsValue).
#[local] Set Elimination Schemes.

(** An integer literal of the source as a binary64. *)
Definition num (z : Z) : spec_float := binary_normalize 53 1024 z 0 false.

(** [ToBoolean] of ECMAScript: [undefined], [null], [false], [+0], [-0],
    [NaN] and the empty string are falsy, everything else is truthy. *)
Definition ToBoolean (v : JsValue) : bool :=
  match v with
  | JUndefined | JNull => false
  | JBool b => b
  | JNumber (S754_zero _) | JNumber S754_nan => false
  | JNumber _ => true
  | JString EmptyString => false
  | JString _ => true
  | JArray _ | JObject _ => true
  end.

(** [a || b] on values: [a] when it is truthy, else [b]. *)
Definition js_or (a b : JsValue) : JsValue := if ToBoolean a then a else b.

(** [String.prototype.includes]: [needle] occurs somewhere in [s]. *)
Fixpoint includes (needle s : string) : bool :=
  String.prefix needle s ||
  match s with
  | EmptyString => false
  | String _ s' => includes needle s'
  end.

(** The value thrown into the [catch] block: an [Error] as its constructor
    builds it, with a string for [message], and with the optional
    [response] property that HTTP clients attach ([undefined] when there is
    none).  A thrown value that is no object, or an [Error] whose [message]
    was replaced by a value that is no string, is outside this type: the
    properties below are about errors with a string message. *)
Record JsError : Type := {
  message : string;
  response : JsValue
}.

Definition TypeError (msg : string) : JsError :=
  {| message := msg; response := JUndefined |}.

(** Reading property [k] of [v].  On [undefined] and [null] the read throws
    a [TypeError] ([None]); on an object it is the own property or
    [undefined].  The keys the endpoint reads ([prompt], [data], [status],
    [error], [message]) are defined on no primitive or array prototype, so
    they read as [undefined] there. *)
Definition GetV (v : JsValue) (k : string) : option JsValue :=
  match v with
  | JUndefined | JNull => None
  | JObject props => Some (default JUndefined (props !! k))
  | _ => Some JUndefined
  end.

(** ** The request, the environment and the provider *)

(** The two properties of [req] the source reads: [req.method], and
    [req.body] as the runtime parsed it ([undefined] when the request has
    no body it can parse, otherwise the parsed value, which for a JSON body
    is any JSON value, [null] included). *)
Record Request : Type := {
  method : string;
  body : JsValue
}.

Inductive HarmCategory : Type :=
  | HARM_CATEGORY_HARASSMENT
  | HARM_CATEGORY_HATE_SPEECH
  | HARM_CATEGORY_SEXUALLY_EXPLICIT
  | HARM_CATEGORY_DANGEROUS_CONTENT.

Inductive HarmBlockThreshold : Type :=
  | BLOCK_MEDIUM_AND_ABOVE.

Record GenerationConfig : Type := {
  temperature : spec_float;
  topK : Z;
  topP : Z;
  maxOutputTokens : Z
}.

(** Everything the handler hands to the SDK for one generation. *)
Record GenerateContentRequest : Type := {
  gc_apiKey : JsValue;
  gc_model : string;
  gc_text : JsValue;
  gc_generationConfig : GenerationConfig;
  gc_safetySettings : list (HarmCategory * HarmBlockThreshold)
}.

(** The ways the [try] block's dealings with the SDK can go: an exception
    (a rejected [generateContent], or [response.text()] throwing), the
    value [response.text()] returns, or a promise that never settles (the
    source sets no timeout on the [await] of line 98). *)
Inductive ProviderOutcome : Type :=
  | Throws (e : JsError)
  | Returns (text : JsValue)
  | Pending.

(** ** The response object and the world *)

(** One response as it leaves the function: the status and the headers at
    the moment of sending, and the value given to [res.json] ([None] for a
    bare [res.end()]). *)
Record HttpResponse : Type := {
  resp_status : JsValue;
  resp_headers : gmap string JsValue;
  resp_body : option JsValue
}.

Inductive LogLevel : Type := LogError | LogWarn.

Record World : Type := {
  headers : gmap string JsValue;
  statusCode : JsValue;
  responses : list HttpResponse;
  calls : list GenerateContentRequest;
  console : list (LogLevel * string * option JsError)
}.

(** A fresh [res]: no header, Node's default status 200, nothing sent. *)
Definition fresh : World :=
  {| headers := ∅; statusCode := JNumber (num 200); responses := [];
     calls := []; console := [] |}.

(** ** The monad: state plus JavaScript completions *)

(** How an [async] function ends: it returns, it throws (its promise
    rejects), or it stays suspended at an [await] that never resumes. *)
Inductive Completion (A : Type) : Type :=
  | Normal (a : A)
  | Throw (e : JsError)
  | Suspended.
Arguments Normal {A} a.
Arguments Throw {A} e.
Arguments Suspended {A}.

Definition M (A : Type) : Type := World → Completion A * World.

Definition ret {A} (a : A) : M A := λ w, (Normal a, w).

Definition bind {A B} (m : M A) (k : A → M B) : M B :=
  λ w, match m w with
       | (Normal a, w') => k a w'
       | (Throw e, w') => (Throw e, w')
       | (Suspended, w') => (Suspended, w')
       end.

Definition throw {A} (e : JsError) : M A := λ w, (Throw e, w).

(** [try { m } catch (error) { h error }] *)
Definition try_catch {A} (m : M A) (h : JsError → M A) : M A :=
  λ w, match m w with
       | (Normal a, w') => (Normal a, w')
       | (Throw e, w') => h e w'
       | (Suspended, w') => (Suspended, w')
       end.

(** stdpp's [x ← m; k] and [m;; k] are this monad's sequencing. *)
#[export] Instance M_ret : MRet M := @ret.
#[export] Instance M_bind : MBind M := λ A B k m, bind m k.

(** *** The primitives of the runtime the source calls *)

(** [res.setHeader(name, value)] *)
Definition setHeader (name : string) (value : JsValue) : M unit :=
  λ w, (Normal (),
        {| headers := <[name := value]> (headers w);
           statusCode := statusCode w; responses := responses w;
           calls := calls w; console := console w |}).

(** [res.status(code)]: the code is stored as it is given.  The runtime
    checks it only when the head is written, and refuses one that is not,
    as an integer, from 100 to 999; that check is not part of the source:
    the six literal codes pass it, and a property about a status taken from
    an error assumes [acceptable_status]. *)
Definition status (code : JsValue) : M unit :=
  λ w, (Normal (),
        {| headers := headers w; statusCode := code;
           responses := responses w; calls := calls w;
           console := console w |}).

(** Sending: the response leaves with the status and the headers [res]
    has at that moment.  Every send is recorded, so that a path sending
    twice, or not at all, shows in [responses].  What the runtime adds on
    its own (a [Content-Type], the serialisation of the value) is not part
    of the source and is left out. *)
Definition send (payload : option JsValue) : M unit :=
  λ w, (Normal (),
        {| headers := headers w; statusCode := statusCode w;
           responses := responses w ++
             [{| resp_status := statusCode w; resp_headers := headers w;
                 resp_body := payload |}];
           calls := calls w; console := console w |}).

(** [res.json(value)] and [res.end()] *)
Definition json (value : JsValue) : M unit := send (Some value).
Definition end_ : M unit := send None.

Definition log (l : LogLevel) (text : string) (e : option JsError) : M unit :=
  λ w, (Normal (),
        {| headers := headers w; statusCode := statusCode w;
           responses := responses w; calls := calls w;
           console := console w ++ [(l, text, e)] |}).

(** [undefined] or [null], as the text of a [TypeError] names it. *)
Definition nullish_name (v : JsValue) : string :=
  match v with JNull => "null" | _ => "undefined" end.

(** A property read in the monad: [v.k], throwing on [undefined]/[null]. *)
Definition get (v : JsValue) (k : string) : M JsValue :=
  match GetV v k with
  | Some x => ret x
  | None => throw (TypeError ("Cannot read properties of " +:+ nullish_name v
                              +:+ " (reading '" +:+ k +:+ "')"))
  end.

(** [v?.k] *)
Definition get_opt (v : JsValue) (k : string) : M JsValue :=
  match v with
  | JUndefined | JNull => ret JUndefined
  | _ => get v k
  end.

(** [const { k } = req.body]: a property read that throws when the body
    is [undefined] or [null], with a text that says which. *)
Definition destructure (v : JsValue) (k : string) : M JsValue :=
  match GetV v k with
  | Some x => ret x
  | None => throw (TypeError ("Cannot destructure property '" +:+ k +:+
                              "' of 'req.body' as it is " +:+ nullish_name v
                              +:+ "."))
  end.

(** ** The source: [allowCors] and [handler] *)

Definition dquote : string := String "034"%char EmptyString.

(** The literals of the source. *)
Definition msg_method : string := "Método no permitido".
Definition msg_prompt : string :=
  "El campo " +:+ dquote +:+ "prompt" +:+ dquote +:+ " es requerido.".
Definition msg_config : string := "Error de configuración del servidor.".
Definition msg_no_text : string :=
  "No se recibió una respuesta textual válida del modelo.".
Definition msg_internal : string :=
  "Error interno al procesar la consulta con la IA.".
Definition msg_gemini : string := "Error de Gemini: ".
Definition msg_key : string :=
  "La clave API no es válida o no tiene permisos. Verifique su GOOGLE_API_KEY.".
Definition msg_blocked : string :=
  "Contenido bloqueado por las políticas de seguridad de la IA: ".
Definition cors_allow_headers : string :=
  "X-CSRF-Token, X-Requested-With, Accept, Accept-Version, Content-Length, Content-MD5, Content-Type, Date, X-Api-Version".

Definition generationConfig : GenerationConfig :=
  {| temperature := S754_finite false 8106479329266893 (-53); (* 0.9 *)
     topK := 1; topP := 1; maxOutputTokens := 2048 |}.

Definition safetySettings : list (HarmCategory * HarmBlockThreshold) :=
  [ (HARM_CATEGORY_HARASSMENT, BLOCK_MEDIUM_AND_ABOVE);
    (HARM_CATEGORY_HATE_SPEECH, BLOCK_MEDIUM_AND_ABOVE);
    (HARM_CATEGORY_SEXUALLY_EXPLICIT, BLOCK_MEDIUM_AND_ABOVE);
    (HARM_CATEGORY_DANGEROUS_CONTENT, BLOCK_MEDIUM_AND_ABOVE) ].

(** What the handler passes to the SDK for a key and a prompt:
    [getGenerativeModel({ model })] and the argument of [generateContent]. *)
Definition generation (apiKey prompt : JsValue) : GenerateContentRequest :=
  {| gc_apiKey := apiKey; gc_model := "gemini-1.5-flash-latest";
     gc_text := prompt; gc_generationConfig := generationConfig;
     gc_safetySettings := safetySettings |}.

Section Endpoint.

(** [process.env], and the provider as an oracle: what the SDK does with
    each generation request. *)
Variable process_env : gmap string string.
Variable sdk : GenerateContentRequest → ProviderOutcome.

(** [process.env.NAME]: a string, or [undefined] when unset. *)
Definition env (name : string) : JsValue :=
  from_option JString JUndefined (process_env !! name).

(** Lines 62-107: build the client and the model, [await
    model.generateContent(...)], then [result.response.text()].  The
    attempt is recorded; its outcome is the provider's. *)
Definition generateContent_text (apiKey prompt : JsValue) : M JsValue :=
  let request := generation apiKey prompt in
  λ w,
    let w' := {| headers := headers w; statusCode := statusCode w;
                 responses := responses w; calls := calls w ++ [request];
                 console := console w |} in
    match sdk request with
    | Throws e => (Throw e, w')
    | Returns text => (Normal text, w')
    | Pending => (Suspended, w')
    end.

(** Lines 125-148: the [catch] block. *)
Definition on_error (error : JsError) : M unit :=
  log LogError "Error al llamar a la API de Google Gemini con SDK:" (Some error);;
  let errorMessage := JString msg_internal in
  let statusCode := JNumber (num 500) in
  cond ← (if ToBoolean (response error)
          then get (response error) "data"
          else ret (response error));
  '(errorMessage, statusCode) ←
    (if ToBoolean cond then
       data ← get (response error) "data";
       err ← get data "error";
       m ← get_opt err "message";
       st ← get (response error) "status";
       ret (js_or m errorMessage, js_or st statusCode)
     else if ToBoolean (JString (message error)) then
       let errorMessage := JString (msg_gemini +:+ message error) in
       if includes "API key not valid" (message error) then
         ret (JString msg_key, JNumber (num 401))
       else if includes "Blocked reason" (message error) then
         ret (JString (msg_blocked +:+ message error), JNumber (num 403))
       else ret (errorMessage, statusCode)
     else ret (errorMessage, statusCode));
  status statusCode;;
  json (JObject {[ "error" := errorMessage ]}).

(** Lines 39-150. *)
Definition handler (req : Request) : M unit :=
  if decide (method req ≠ "POST") then
    setHeader "Allow" (JArray [JString "POST"]);;
    status (JNumber (num 405));;
    json (JObject {[ "error" := JString msg_method ]})
  else
    prompt ← destructure (body req) "prompt";
    if negb (ToBoolean prompt) then
      status (JNumber (num 400));;
      json (JObject {[ "error" := JString msg_prompt ]})
    else
      let apiKey := env "GOOGLE_API_KEY" in
      if negb (ToBoolean apiKey) then
        log LogError "Error: GOOGLE_API_KEY no está configurada." None;;
        status (JNumber (num 500));;
        json (JObject {[ "error" := JString msg_config ]})
      else
        try_catch
          (text ← generateContent_text apiKey prompt;
           if ToBoolean text then
             status (JNumber (num 200));;
             json (JObject {[ "candidates" :=
               JArray [ JObject {[ "content" :=
                 JObject {[ "parts" :=
                   JArray [ JObject {[ "text" := text ]} ] ]} ]} ] ]})
           else
             log LogWarn "La respuesta de Gemini no contiene texto legible." None;;
             status (JNumber (num 500));;
             json (JObject {[ "error" := JString msg_no_text ]}))
          on_error.

(** Lines 22-33. *)
Definition allowCors (fn : Request → M unit) (req : Request) : M unit :=
  setHeader "Access-Control-Allow-Credentials" (JBool true);;
  setHeader "Access-Control-Allow-Origin" (JString "*");;
  setHeader "Access-Control-Allow-Methods" (JString "POST, OPTIONS");;
  setHeader "Access-Control-Allow-Headers" (JString cors_allow_headers);;
  if decide (method req = "OPTIONS") then
    status (JNumber (num 200));;
    end_
  else
    fn req.

(** [module.exports = allowCors(handler)] *)
Definition endpoint : Request → M unit := allowCors handler.

End Endpoint.

(** ** Vocabulary of the properties *)

(** The four CORS headers, as a property of a header map. *)
Definition has_cors (h : gmap string JsValue) : Prop :=
  h !! "Access-Control-Allow-Credentials" = Some (JBool true) ∧
  h !! "Access-Control-Allow-Origin" = Some (JString "*") ∧
  h !! "Access-Control-Allow-Methods" = Some (JString "POST, OPTIONS") ∧
  h !! "Access-Control-Allow-Headers" = Some (JString
    "X-CSRF-Token, X-Requested-With, Accept, Accept-Version, Content-Length, Content-MD5, Content-Type, Date, X-Api-Version").

(** The header map [allowCors] leaves behind. *)
Definition cors (h : gmap string JsValue) : gmap string JsValue :=
  <["Access-Control-Allow-Headers" := JString cors_allow_headers]>
    (<["Access-Control-Allow-Methods" := JString "POST, OPTIONS"]>
      (<["Access-Control-Allow-Origin" := JString "*"]>
        (<["Access-Control-Allow-Credentials" := JBool true]> h))).

(** An error "carries an embedded HTTP response with data": its [response]
    and that response's [data] are both truthy. *)
Definition embedded_data (e : JsError) : JsValue :=
  default JUndefined (GetV (response e) "data").

Definition carries_response (e : JsError) : bool :=
  ToBoolean (response e) && ToBoolean (embedded_data e).

(** The embedded status, [e.response.status], and the embedded message,
    [e.response.data.error?.message] ([undefined] when absent). *)
Definition embedded_status (e : JsError) : JsValue :=
  default JUndefined (GetV (response e) "status").

Definition embedded_message (e : JsError) : JsValue :=
  match GetV (embedded_data e) "error" with
  | None | Some JUndefined | Some JNull => JUndefined
  | Some err => default JUndefined (GetV err "message")
  end.

(** A status the runtime accepts when it writes the head: an integer from
    100 to 999. *)
Definition acceptable_status (v : JsValue) : Prop :=
  ∃ n : Z, (100 ≤ n ≤ 999)%Z ∧ v = JNumber (num n).

(** The status an error would give the answer is one the runtime accepts:
    when the error carries a response with data and a truthy status, that
    status is acceptable. *)
Definition sendable (e : JsError) : Prop :=
  carries_response e = true → ToBoolean (embedded_status e) = true →
  acceptable_status (embedded_status e).

(** The claimed precedence of the error normalisation, as a function from
    the error to the message and the status of the answer. *)
Definition normalized (e : JsError) : JsValue * JsValue :=
  if carries_response e then
    (js_or (embedded_message e) (JString msg_internal),
     js_or (embedded_status e) (JNumber (num 500)))
  else if includes "API key not valid" (message e) then
    (JString msg_key, JNumber (num 401))
  else if includes "Blocked reason" (message e) then
    (JString (msg_blocked +:+ message e), JNumber (num 403))
  else
    (JString (match message e with
              | EmptyString => msg_internal
              | _ => msg_gemini +:+ message e
              end),
     JNumber (num 500)).

(** The outcome of one run: exactly one response was added to [w], with
    this status, these headers and this body, and the run completed
    normally. *)
Definition responds_once (r : Completion unit * World) (w : World)
    (st : JsValue) (h : gmap string JsValue) (b : option JsValue) : Prop :=
  r.1 = Normal () ∧
  responses r.2 = responses w ++
    [ {| resp_status := st; resp_headers := h; resp_body := b |} ].

(** The CORS invariant of a world: the headers are on [res], and were on
    it when each response left. *)
Definition cors_kept (w : World) : Prop :=
  has_cors (headers w) ∧
  Forall (λ r, has_cors (resp_headers r)) (responses w).

(** A computation keeps the invariant, however it completes. *)
Definition keeps {A} (m : M A) : Prop :=
  ∀ w, cors_kept w → cors_kept (m w).2.

(** Requests used as instances. *)
Definition env_key : gmap string string := {[ "GOOGLE_API_KEY" := "secret" ]}.
Definition post_prompt (p : JsValue) : Request :=
  {| method := "POST"; body := JObject {[ "prompt" := p ]} |}.

(** * Properties *)

(** ** Substrings *)

Lemma app_cons (c : ascii) (a b : string) :
  String c a +:+ b = String c (a +:+ b).
Proof. reflexivity. Qed.

Lemma prefix_app (p s : string) :
  String.prefix p s = true ↔ ∃ b, s = p +:+ b.
Proof.
  revert s. induction p as [|c p IH]; intros [|c' s]; simpl.
  - split; [intros _; exists EmptyString; reflexivity | done].
  - split; [intros _; exists (String c' s); reflexivity | done].
  - split; [done | intros [b Hb]; by rewrite app_cons in Hb].
  - destruct (Ascii.ascii_dec c c') as [->|Hne].
    + rewrite IH. split; intros [b Hb]; exists b.
      * by rewrite app_cons, Hb.
      * rewrite app_cons in Hb. by injection Hb.
    + split; [done | intros [b Hb]]. rewrite app_cons in Hb. by injection Hb.
Qed.

(** [includes] is the substring relation. *)
Lemma includes_spec (needle s : string) :
  includes needle s = true ↔ ∃ a b, s = a +:+ needle +:+ b.
Proof.
  induction s as [|c s IH]; cbn [includes]; rewrite orb_true_iff, prefix_app.
  - split.
    + intros [[b Hb]|?]; [exists EmptyString, b; exact Hb | done].
    + intros ([|c a] & b & Hab); [left; exists b; exact Hab | by rewrite app_cons in Hab].
  - rewrite IH. split.
    + intros [[b Hb]|(a & b & Hab)]; [exists EmptyString, b; exact Hb |].
      exists (String c a), b. by rewrite app_cons, Hab.
    + intros ([|c' a] & b & Hab); [left; exists b; exact Hab |].
      right. exists a, b. rewrite app_cons in Hab. by injection Hab.
Qed.

Lemma app_empty_r (s : string) : s +:+ EmptyString = s.
Proof. induction s as [|c s IH]; [done | by rewrite app_cons, IH]. Qed.

Lemma includes_app_r (p s : string) : includes s (p +:+ s) = true.
Proof.
  apply includes_spec. exists p, EmptyString. by rewrite app_empty_r.
Qed.

(** ** The control paths of [handler] *)

Ltac unfold_monad :=
  unfold mbind, M_bind, bind, mret, M_ret, ret, throw, try_catch,
    setHeader, status, json, end_, send, log.

Ltac run_world :=
  unfold_monad; cbn [fst snd headers statusCode responses calls console].

Section Paths.

Variable process_env : gmap string string.
Variable sdk : GenerateContentRequest → ProviderOutcome.

(** A [POST] whose body can be destructured goes on with the prompt. *)
Lemma handler_POST (req : Request) (p : JsValue) (w : World) :
  method req = "POST" →
  GetV (body req) "prompt" = Some p →
  handler process_env sdk req w =
  handler process_env sdk
    {| method := "POST"; body := JObject {[ "prompt" := p ]} |} w.
Proof.
  intros Hm Hp. unfold handler, destructure. rewrite Hm, Hp.
  cbn [method body GetV]. by rewrite lookup_singleton_eq.
Qed.

(** C4.  Whatever the method, as long as it is not [POST], [handler]
    sets [Allow: POST], answers 405 with an [{error: string}] body, sends
    nothing else and does not reach the provider. *)
Theorem handler_rejects_non_POST (req : Request) (w : World) :
  method req ≠ "POST" →
  let r := handler process_env sdk req w in
  responds_once r w (JNumber (num 405))
    (<["Allow" := JArray [JString "POST"]]> (headers w))
    (Some (JObject {[ "error" := JString "Método no permitido" ]})) ∧
  headers r.2 !! "Allow" = Some (JArray [JString "POST"]) ∧
  calls r.2 = calls w.
Proof.
  intros Hm. unfold handler, responds_once. rewrite decide_True by done.
  run_world. by rewrite lookup_insert_eq.
Qed.

(** A [POST] whose body is a value with no [prompt] property, or with an
    empty one, is answered 400 with
    [{error: 'El campo "prompt" es requerido.'}], and the provider is not
    called. *)
Lemma handler_rejects_missing_prompt (req : Request) (w : World) :
  method req = "POST" →
  GetV (body req) "prompt" = Some JUndefined ∨
  GetV (body req) "prompt" = Some (JString EmptyString) →
  let r := handler process_env sdk req w in
  responds_once r w (JNumber (num 400)) (headers w)
    (Some (JObject {[ "error" := JString
      ("El campo " +:+ dquote +:+ "prompt" +:+ dquote +:+ " es requerido.") ]})) ∧
  calls r.2 = calls w.
Proof.
  intros Hm Hp r. subst r.
  destruct Hp as [Hp|Hp]; rewrite (handler_POST _ _ _ Hm Hp); done.
Qed.

(** C6.  A [POST] whose body is [null] or [undefined] has no [prompt]
    either, yet it is not answered 400: line 45 throws before the check of
    line 47, and [handler] ends with the exception, having sent nothing. *)
Theorem handler_absent_body_throws (w : World) :
  let r1 := handler process_env sdk {| method := "POST"; body := JNull |} w in
  let r2 := handler process_env sdk {| method := "POST"; body := JUndefined |} w in
  (∃ e, r1.1 = Throw e) ∧ r1.2 = w ∧
  (∃ e, r2.1 = Throw e) ∧ r2.2 = w.
Proof.
  cbn zeta. unfold handler, destructure.
  rewrite !decide_False by (by intros []).
  cbn [body GetV]. run_world. repeat split; by eexists.
Qed.

(** C7.  A [POST] with a truthy prompt, when [GOOGLE_API_KEY] is unset
    (or set to the empty string), is answered 500 with the configuration
    error, and the provider is not called. *)
Theorem handler_missing_credential (req : Request) (p : JsValue) (w : World) :
  method req = "POST" →
  GetV (body req) "prompt" = Some p →
  ToBoolean p = true →
  process_env !! "GOOGLE_API_KEY" = None ∨
  process_env !! "GOOGLE_API_KEY" = Some EmptyString →
  let r := handler process_env sdk req w in
  responds_once r w (JNumber (num 500)) (headers w)
    (Some (JObject {[ "error" := JString "Error de configuración del servidor." ]})) ∧
  calls r.2 = calls w.
Proof.
  intros Hm Hp Ht Hk r. subst r. rewrite (handler_POST _ _ _ Hm Hp).
  unfold handler, destructure, env. cbn [method body GetV].
  rewrite decide_False by (by intros []). rewrite lookup_singleton_eq.
  run_world. cbn [default from_option id]. rewrite Ht.
  destruct Hk as [->| ->]; done.
Qed.

(** With a truthy prompt and a configured key, the provider is asked
    once, and the handler goes on with what it answers. *)
Ltac reach_provider Hm Hp Ht Hk k :=
  rewrite (handler_POST _ _ _ Hm Hp);
  unfold handler, destructure, env; cbn [method body GetV];
  rewrite decide_False by (by intros []); rewrite lookup_singleton_eq;
  run_world; cbn [default from_option id]; rewrite Ht, Hk;
  cbn [from_option negb];
  destruct k as [|? ?]; [done|];
  cbn [ToBoolean negb]; unfold generateContent_text;
  cbn [fst snd headers statusCode responses calls console].

(** C1.  A [POST] with a truthy prompt, a configured key and a provider
    that returns a non-empty text [t] is answered 200 with exactly
    [{candidates: [{content: {parts: [{text: t}]}}]}]; the provider was
    asked once, with the prompt. *)
Theorem handler_success (req : Request) (p : JsValue) (k t : string)
    (w : World) :
  method req = "POST" →
  GetV (body req) "prompt" = Some p →
  ToBoolean p = true →
  process_env !! "GOOGLE_API_KEY" = Some k →
  k ≠ EmptyString →
  sdk (generation (JString k) p) = Returns (JString t) →
  t ≠ EmptyString →
  let r := handler process_env sdk req w in
  responds_once r w (JNumber (num 200)) (headers w)
    (Some (JObject {[ "candidates" :=
       JArray [ JObject {[ "content" :=
         JObject {[ "parts" :=
           JArray [ JObject {[ "text" := JString t ]} ] ]} ]} ] ]})) ∧
  calls r.2 = calls w ++ [generation (JString k) p].
Proof.
  intros Hm Hp Ht Hk Hne Hsdk Htne r. subst r.
  reach_provider Hm Hp Ht Hk k. rewrite Hsdk.
  destruct t as [|c t]; done.
Qed.

(** C8.  Same request, but the provider's text is falsy (the empty
    string, or no string at all): the answer is 500 with a generic
    [{error: string}] body. *)
Theorem handler_empty_text (req : Request) (p text : JsValue) (k : string)
    (w : World) :
  method req = "POST" →
  GetV (body req) "prompt" = Some p →
  ToBoolean p = true →
  process_env !! "GOOGLE_API_KEY" = Some k →
  k ≠ EmptyString →
  sdk (generation (JString k) p) = Returns text →
  ToBoolean text = false →
  let r := handler process_env sdk req w in
  responds_once r w (JNumber (num 500)) (headers w)
    (Some (JObject {[ "error" := JString
       "No se recibió una respuesta textual válida del modelo." ]})) ∧
  calls r.2 = calls w ++ [generation (JString k) p].
Proof.
  intros Hm Hp Ht Hk Hne Hsdk Hfalsy r. subst r.
  reach_provider Hm Hp Ht Hk k. rewrite Hsdk, Hfalsy. done.
Qed.

(** A truthy value is neither [undefined] nor [null]: reading one of
    its properties does not throw. *)
Lemma GetV_truthy (v : JsValue) (k : string) :
  ToBoolean v = true → ∃ x, GetV v k = Some x.
Proof. destruct v; intros Hv; try done; cbn [GetV]; eauto. Qed.

(** The [catch] block computes [normalized], and sends it. *)
Lemma on_error_run (e : JsError) (w : World) :
  on_error e w =
  (Normal (),
   {| headers := headers w; statusCode := (normalized e).2;
      responses := responses w ++
        [ {| resp_status := (normalized e).2; resp_headers := headers w;
             resp_body := Some (JObject {[ "error" := (normalized e).1 ]}) |} ];
      calls := calls w;
      console := console w ++
        [ (LogError, "Error al llamar a la API de Google Gemini con SDK:",
           Some e) ] |}).
Proof.
  destruct e as [m r].
  unfold on_error, normalized, carries_response, embedded_message,
    embedded_status, embedded_data, get, get_opt.
  cbn [message response].
  destruct (ToBoolean r) eqn:Hr; cbn [andb].
  - destruct (GetV_truthy r "data" Hr) as [d Hd].
    destruct (GetV_truthy r "status" Hr) as [st Hst].
    rewrite Hd, Hst. cbn [default from_option id].
    run_world. destruct (ToBoolean d) eqn:Hdt.
    + destruct (GetV_truthy d "error" Hdt) as [err Herr]. rewrite Herr.
      destruct err; cbn [GetV default from_option id]; done.
    + destruct m as [|c m]; cbn [ToBoolean]; [done|].
      destruct (includes "API key not valid" _); [done|].
      destruct (includes "Blocked reason" _); done.
  - run_world. rewrite Hr.
    destruct m as [|c m]; cbn [ToBoolean]; [done|].
    destruct (includes "API key not valid" _); [done|].
    destruct (includes "Blocked reason" _); done.
Qed.

(** C2, as the code has it.  When the provider throws an error [e] (with
    a string message, and giving a status the runtime accepts), the answer
    is one response [{error: msg}] with a status [st], chosen in this
    order.  If [e.response] and [e.response.data] are truthy: [st] is
    [e.response.status] when that is truthy and 500 when it is not, and
    [msg] is [e.response.data.error?.message] when that is truthy, as it
    is and whatever its type, and the generic message when it is not.
    Else, if [e.message] contains [API key not valid]: 401 and the
    credential message.  Else, if it contains [Blocked reason]: 403 and a
    message that ends with [e.message].  Else 500 and the wrapped
    message.  [msg] is a string in every case but that of an embedded
    message that is truthy and no string. *)
Theorem handler_error_precedence (req : Request) (p : JsValue) (k : string)
    (e : JsError) (w : World) :
  method req = "POST" →
  GetV (body req) "prompt" = Some p →
  ToBoolean p = true →
  process_env !! "GOOGLE_API_KEY" = Some k →
  k ≠ EmptyString →
  sdk (generation (JString k) p) = Throws e →
  sendable e →
  let r := handler process_env sdk req w in
  ∃ st msg : JsValue,
    responds_once r w st (headers w) (Some (JObject {[ "error" := msg ]})) ∧
    calls r.2 = calls w ++ [generation (JString k) p] ∧
    (carries_response e = true →
       (ToBoolean (embedded_status e) = true → st = embedded_status e) ∧
       (ToBoolean (embedded_status e) = false → st = JNumber (num 500)) ∧
       (ToBoolean (embedded_message e) = true → msg = embedded_message e) ∧
       (ToBoolean (embedded_message e) = false →
          msg = JString "Error interno al procesar la consulta con la IA.")) ∧
    (carries_response e = false →
     includes "API key not valid" (message e) = true →
       st = JNumber (num 401) ∧
       msg = JString
         "La clave API no es válida o no tiene permisos. Verifique su GOOGLE_API_KEY.") ∧
    (carries_response e = false →
     includes "API key not valid" (message e) = false →
     includes "Blocked reason" (message e) = true →
       st = JNumber (num 403) ∧
       msg = JString
         ("Contenido bloqueado por las políticas de seguridad de la IA: "
          +:+ message e) ∧
       includes (message e)
         ("Contenido bloqueado por las políticas de seguridad de la IA: "
          +:+ message e) = true) ∧
    (carries_response e = false →
     includes "API key not valid" (message e) = false →
     includes "Blocked reason" (message e) = false →
       st = JNumber (num 500) ∧
       msg = JString (match message e with
                      | EmptyString =>
                          "Error interno al procesar la consulta con la IA."
                      | _ => "Error de Gemini: " +:+ message e
                      end)) ∧
    (carries_response e = false ∨
     ToBoolean (embedded_message e) = false ∨
     (∃ s, embedded_message e = JString s) → ∃ s, msg = JString s).
Proof.
  intros Hm Hp Ht Hk Hne Hsdk _ r. subst r.
  exists (normalized e).2, (normalized e).1.
  split; [|split].
  - reach_provider Hm Hp Ht Hk k. rewrite Hsdk, on_error_run. done.
  - reach_provider Hm Hp Ht Hk k. rewrite Hsdk, on_error_run. done.
  - unfold normalized, js_or.
    destruct (carries_response e).
    { cbn [fst snd]. split; [|repeat split; intros; try done].
      - intros _.
        destruct (ToBoolean (embedded_status e));
          destruct (ToBoolean (embedded_message e)); by repeat split.
      - match goal with H : _ ∨ _ |- _ => destruct H as [?|[Hf|[s Hs]]] end;
          [done | rewrite Hf; by eexists |].
        rewrite Hs. destruct (ToBoolean (JString s)); by eexists. }
    destruct (includes "API key not valid" (message e));
      [repeat split; intros; try done; by eexists|].
    destruct (includes "Blocked reason" (message e)).
    + repeat split; intros; try done; [apply includes_app_r | by eexists].
    + repeat split; intros; try done. by eexists.
Qed.

(** C10.  The validation of [prompt] is [!prompt]: every falsy value
    of the property (the empty string, 0, [false], [null], as well as a
    missing property) gets the same 400 answer, and every truthy one,
    whitespace included, goes on to the credential check and the
    provider. *)
Theorem prompt_validation_is_truthiness (req : Request) (p : JsValue)
    (w : World) :
  method req = "POST" →
  GetV (body req) "prompt" = Some p →
  let r := handler process_env sdk req w in
  (ToBoolean p = false →
     responds_once r w (JNumber (num 400)) (headers w)
       (Some (JObject {[ "error" := JString msg_prompt ]})) ∧
     calls r.2 = calls w ∧
     r = handler process_env sdk {| method := "POST"; body := JObject ∅ |} w) ∧
  (ToBoolean p = true →
     (∀ k, process_env !! "GOOGLE_API_KEY" = Some k → k ≠ EmptyString →
        calls r.2 = calls w ++ [generation (JString k) p]) ∧
     (process_env !! "GOOGLE_API_KEY" = None →
        responds_once r w (JNumber (num 500)) (headers w)
          (Some (JObject {[ "error" := JString msg_config ]})))) ∧
  Forall (λ v, ToBoolean v = false)
    [ JString EmptyString; JNumber (num 0); JBool false; JNull; JUndefined ] ∧
  ToBoolean (JString " ") = true ∧
  (∀ s, s ≠ EmptyString → ToBoolean (JString s) = true).
Proof.
  intros Hm Hp r. subst r. rewrite (handler_POST _ _ _ Hm Hp).
  split; [|split; [|split; [|split]]].
  - intros Hf. unfold handler, destructure. cbn [method body GetV].
    rewrite decide_False by (by intros []).
    rewrite lookup_singleton_eq, lookup_empty.
    run_world. cbn [default from_option id]. by rewrite Hf.
  - intros Ht. split.
    + intros k Hk Hne.
      unfold handler, destructure, env; cbn [method body GetV].
      rewrite decide_False by (by intros []). rewrite lookup_singleton_eq.
      run_world. cbn [default from_option id]. rewrite Ht, Hk.
      cbn [from_option negb]. destruct k as [|c k]; [done|].
      cbn [ToBoolean negb]. unfold generateContent_text.
      cbn [fst snd headers statusCode responses calls console].
      destruct (sdk _) as [e|text|];
        [by rewrite on_error_run | by destruct (ToBoolean text) | done].
    + intros Hk.
      unfold handler, destructure, env; cbn [method body GetV].
      rewrite decide_False by (by intros []). rewrite lookup_singleton_eq.
      run_world. cbn [default from_option id]. by rewrite Ht, Hk.
  - repeat constructor.
  - done.
  - by intros [|c s].
Qed.

(** *** The CORS headers are never lost *)

Lemma has_cors_cors (h : gmap string JsValue) : has_cors (cors h).
Proof.
  unfold has_cors, cors.
  repeat split;
    repeat (rewrite lookup_insert_ne by done); by rewrite lookup_insert_eq.
Qed.

Lemma keeps_ret {A} (a : A) : keeps (mret a).
Proof. by intros w Hw. Qed.

Lemma keeps_throw {A} (e : JsError) : keeps (@throw A e).
Proof. by intros w Hw. Qed.

Lemma keeps_bind {A B} (m : M A) (k : A → M B) :
  keeps m → (∀ a, keeps (k a)) → keeps (m ≫= k).
Proof.
  intros Hm Hk w Hw. specialize (Hm w Hw).
  unfold mbind, M_bind, bind. destruct (m w) as [[a|e|] w']; [|done|done].
  by apply Hk.
Qed.

Lemma keeps_try_catch {A} (m : M A) (h : JsError → M A) :
  keeps m → (∀ e, keeps (h e)) → keeps (try_catch m h).
Proof.
  intros Hm Hh w Hw. specialize (Hm w Hw).
  unfold try_catch. destruct (m w) as [[a|e|] w']; [done| |done].
  by apply Hh.
Qed.

Lemma keeps_if {A} (b : bool) (m1 m2 : M A) :
  keeps m1 → keeps m2 → keeps (if b then m1 else m2).
Proof. by destruct b. Qed.

Lemma keeps_status (code : JsValue) : keeps (status code).
Proof. by intros w Hw. Qed.

Lemma keeps_log l text e : keeps (log l text e).
Proof. by intros w Hw. Qed.

Lemma keeps_send (payload : option JsValue) : keeps (send payload).
Proof.
  intros w [Hh Hr]. split; [done|].
  cbn [send snd responses]. apply Forall_app. split; [done|].
  constructor; [exact Hh | constructor].
Qed.

Lemma keeps_setHeader_Allow (v : JsValue) : keeps (setHeader "Allow" v).
Proof.
  intros w [(H1 & H2 & H3 & H4) Hr]. split; [|done].
  cbn [setHeader snd headers]. unfold has_cors.
  by rewrite !lookup_insert_ne.
Qed.

Lemma keeps_get (v : JsValue) (k : string) : keeps (get v k).
Proof. unfold get. destruct (GetV v k); [apply keeps_ret | apply keeps_throw]. Qed.

Lemma keeps_get_opt (v : JsValue) (k : string) : keeps (get_opt v k).
Proof. destruct v; first [apply keeps_ret | apply keeps_get]. Qed.

Lemma keeps_destructure (v : JsValue) (k : string) : keeps (destructure v k).
Proof.
  unfold destructure. destruct (GetV v k); [apply keeps_ret | apply keeps_throw].
Qed.

Lemma keeps_generateContent_text (apiKey prompt : JsValue) :
  keeps (generateContent_text sdk apiKey prompt).
Proof.
  intros w Hw. unfold generateContent_text. by destruct (sdk _).
Qed.

Create HintDb keeps discriminated.
#[local] Hint Resolve keeps_ret keeps_throw keeps_bind keeps_try_catch
  keeps_if keeps_status keeps_log keeps_send keeps_setHeader_Allow
  keeps_get keeps_get_opt keeps_destructure keeps_generateContent_text
  : keeps.

Lemma keeps_on_error (e : JsError) : keeps (on_error e).
Proof.
  unfold on_error, json.
  repeat first
    [ apply keeps_bind; [|intros ?] | apply keeps_if
    | match goal with |- keeps (let '(_, _) := ?x in _) => destruct x end
    | solve [auto with keeps] ].
Qed.

Lemma keeps_handler (req : Request) : keeps (handler process_env sdk req).
Proof.
  unfold handler, json.
  repeat first
    [ apply keeps_on_error | apply keeps_try_catch; [|intros ?]
    | apply keeps_bind; [|intros ?] | apply keeps_if
    | match goal with |- keeps (if decide _ then _ else _) => case_decide end
    | solve [auto with keeps] ].
Qed.

(** *** The exported function *)

(** [allowCors fn] sets the four headers, then either answers the
    preflight itself or hands the request to [fn]. *)
Lemma allowCors_run (fn : Request → M unit) (req : Request) (w : World) :
  allowCors fn req w =
  if decide (method req = "OPTIONS") then
    (Normal (),
     {| headers := cors (headers w); statusCode := JNumber (num 200);
        responses := responses w ++
          [ {| resp_status := JNumber (num 200);
               resp_headers := cors (headers w); resp_body := None |} ];
        calls := calls w; console := console w |})
  else
    fn req {| headers := cors (headers w); statusCode := statusCode w;
              responses := responses w; calls := calls w;
              console := console w |}.
Proof. unfold allowCors. run_world. by case_decide. Qed.

(** C3.  On a fresh [res], whatever the request, the environment and the
    provider do, the four CORS headers are on [res] when the exported
    function is done, and were on every response it sent. *)
Theorem cors_headers_on_every_response (req : Request) :
  let r := endpoint process_env sdk req fresh in
  has_cors (headers r.2) ∧
  Forall (λ x, has_cors (resp_headers x)) (responses r.2).
Proof.
  cbn zeta. unfold endpoint. rewrite allowCors_run.
  assert (cors_kept {| headers := cors (headers fresh);
                       statusCode := statusCode fresh;
                       responses := responses fresh; calls := calls fresh;
                       console := console fresh |}) as Hw.
  { split; [apply has_cors_cors | constructor]. }
  case_decide as Hm.
  - split; [apply has_cors_cors|].
    constructor; [apply has_cors_cors | constructor].
  - by apply keeps_handler.
Qed.

(** C5.  An [OPTIONS] request is answered by [allowCors] alone: status
    200, no body, the CORS headers, and a final state that does not
    depend on the wrapped function, which is not run. *)
Theorem preflight_short_circuit (fn : Request → M unit) (req : Request)
    (w : World) :
  method req = "OPTIONS" →
  allowCors fn req w =
    (Normal (),
     {| headers := cors (headers w); statusCode := JNumber (num 200);
        responses := responses w ++
          [ {| resp_status := JNumber (num 200);
               resp_headers := cors (headers w); resp_body := None |} ];
        calls := calls w; console := console w |}) ∧
  has_cors (cors (headers w)) ∧
  (∀ fn', allowCors fn' req w = allowCors fn req w).
Proof.
  intros Hm. rewrite allowCors_run, decide_True by done.
  split; [done | split; [apply has_cors_cors|]].
  intros fn'. by rewrite allowCors_run, decide_True by done.
Qed.

(** With a provider that settles, and whose errors give a status the
    runtime accepts, every request other than a [POST] without a
    destructurable body gets exactly one response, and the function
    completes normally. *)
Lemma endpoint_responds_once (req : Request) (w : World) :
  (∀ q, sdk q ≠ Pending) →
  (∀ q e, sdk q = Throws e → sendable e) →
  method req ≠ "POST" ∨ is_Some (GetV (body req) "prompt") →
  ∃ st h b, responds_once (endpoint process_env sdk req w) w st h b.
Proof.
  intros Hsettles _ Hok. unfold endpoint, responds_once. rewrite allowCors_run.
  case_decide as Ho; [by eexists _, _, _|].
  destruct (decide (method req = "POST")) as [Hm|Hm].
  - destruct Hok as [?|[p Hp]]; [done|].
    rewrite (handler_POST _ _ _ Hm Hp).
    unfold handler, destructure, env; cbn [method body GetV].
    rewrite decide_False by (by intros []). rewrite lookup_singleton_eq.
    run_world. cbn [default from_option id].
    destruct (ToBoolean p); cbn [negb]; [|by eexists _, _, _].
    destruct (ToBoolean _); cbn [negb]; [|by eexists _, _, _].
    unfold generateContent_text.
    cbn [fst snd headers statusCode responses calls console].
    destruct (sdk _) as [e|text|] eqn:Hsdk.
    + rewrite on_error_run. by eexists _, _, _.
    + destruct (ToBoolean text); by eexists _, _, _.
    + by destruct (Hsettles _ Hsdk).
  - unfold handler. rewrite decide_True by done. run_world.
    by eexists _, _, _.
Qed.

(** C9.  A [POST] whose body is [null] (the JSON text [null]) or
    [undefined] (no body) makes the destructuring on line 45 throw
    outside the [try]: the exported function sends no response. *)
Theorem endpoint_absent_body_sends_nothing :
  let r1 := endpoint process_env sdk {| method := "POST"; body := JNull |} fresh in
  let r2 := endpoint process_env sdk {| method := "POST"; body := JUndefined |} fresh in
  (∃ e, r1.1 = Throw e) ∧ responses r1.2 = [] ∧
  (∃ e, r2.1 = Throw e) ∧ responses r2.2 = [].
Proof.
  cbn zeta. unfold endpoint. rewrite !allowCors_run.
  rewrite !decide_False by done.
  unfold handler. rewrite !decide_False by (by intros []).
  unfold destructure. cbn [body GetV]. run_world.
  repeat split; by eexists.
Qed.

End Paths.

(** ** The exported function on the other methods *)

(** Through [allowCors], every method other than [POST] and [OPTIONS] gets
    the 405 of [handler], with the CORS headers next to [Allow]. *)
Lemma endpoint_rejects_other_methods process_env sdk (req : Request) :
  method req ≠ "POST" → method req ≠ "OPTIONS" →
  responds_once (endpoint process_env sdk req fresh) fresh
    (JNumber (num 405))
    (<["Allow" := JArray [JString "POST"]]> (cors ∅))
    (Some (JObject {[ "error" := JString "Método no permitido" ]})).
Proof.
  intros Hp Ho. unfold endpoint, responds_once.
  rewrite allowCors_run, decide_False by done.
  unfold handler. rewrite decide_True by done. by run_world.
Qed.

(** ** Instances *)

(** [POST {prompt: "Hola"}], key configured, the provider says [hello]. *)
Lemma handler_success_witness :
  let sdk := λ _, Returns (JString "hello") in
  let r := handler env_key sdk (post_prompt (JString "Hola")) fresh in
  responds_once r fresh (JNumber (num 200)) (headers fresh)
    (Some (JObject {[ "candidates" :=
       JArray [ JObject {[ "content" :=
         JObject {[ "parts" :=
           JArray [ JObject {[ "text" := JString "hello" ]} ] ]} ]} ] ]})) ∧
  calls r.2 = calls fresh ++ [generation (JString "secret") (JString "Hola")].
Proof.
  intros sdk.
  apply (handler_success env_key sdk (post_prompt (JString "Hola"))
           (JString "Hola") "secret" "hello" fresh);
    first [reflexivity | discriminate].
Defined.

(** The four branches: an embedded response, a refused key, a blocked
    prompt, and any other error. *)
Lemma handler_error_precedence_witness :
  let run e := handler env_key (λ _, Throws e) (post_prompt (JString "Hola")) fresh in
  responds_once
    (run {| message := "Request failed";
            response := JObject {[
              "data" := JObject {[ "error" :=
                          JObject {[ "message" := JString "Quota exceeded" ]} ]};
              "status" := JNumber (num 429) ]} |})
    fresh (JNumber (num 429)) (headers fresh)
    (Some (JObject {[ "error" := JString "Quota exceeded" ]})) ∧
  responds_once
    (run {| message := "API key not valid. Blocked reason: none";
            response := JUndefined |})
    fresh (JNumber (num 401)) (headers fresh)
    (Some (JObject {[ "error" := JString msg_key ]})) ∧
  responds_once
    (run {| message := "Blocked reason: SAFETY"; response := JUndefined |})
    fresh (JNumber (num 403)) (headers fresh)
    (Some (JObject {[ "error" := JString
       (msg_blocked +:+ "Blocked reason: SAFETY") ]})) ∧
  responds_once
    (run {| message := "fetch failed"; response := JUndefined |})
    fresh (JNumber (num 500)) (headers fresh)
    (Some (JObject {[ "error" := JString "Error de Gemini: fetch failed" ]})).
Proof.
  intros run. subst run. cbn beta.
  pose proof (λ e, handler_error_precedence env_key (λ _, Throws e)
                     (post_prompt (JString "Hola")) (JString "Hola") "secret"
                     e fresh eq_refl eq_refl eq_refl eq_refl
                     ltac:(discriminate) eq_refl) as Hthm.
  split; [|split; [|split]];
    match goal with
    | |- responds_once (handler _ (λ _, Throws ?e) _ _) _ _ _ _ =>
        destruct (Hthm e) as (st & msg & Hr & _ & H1 & H2 & H3 & H4 & _)
    end;
    try (intros [=]; fail).
  - intros _ _. exists 429%Z. split; [lia | reflexivity].
  - destruct (H1 eq_refl) as (Hst & _ & Hmsg & _).
    rewrite (Hst eq_refl), (Hmsg eq_refl) in Hr. exact Hr.
  - destruct (H2 eq_refl eq_refl) as (-> & ->). exact Hr.
  - destruct (H3 eq_refl eq_refl eq_refl) as (-> & -> & _). exact Hr.
  - destruct (H4 eq_refl eq_refl eq_refl) as (-> & ->). exact Hr.
Defined.

(** C2, as the claim has it, fails: an error whose embedded message is the
    number 42 is answered with [{error: 42}], which is no [{error: string}]
    body. *)
Lemma handler_error_body_not_a_string :
  let e := {| message := "Request failed";
              response := JObject {[
                "data" := JObject {[ "error" :=
                            JObject {[ "message" := JNumber (num 42) ]} ]};
                "status" := JNumber (num 503) ]} |} in
  let r := handler env_key (λ _, Throws e) (post_prompt (JString "Hola")) fresh in
  responses r.2 =
    [ {| resp_status := JNumber (num 503); resp_headers := ∅;
         resp_body := Some (JObject {[ "error" := JNumber (num 42) ]}) |} ] ∧
  ¬ ∃ st h s, responds_once r fresh st h
                (Some (JObject {[ "error" := JString s ]})).
Proof.
  intros e r.
  assert (responses r.2 =
    [ {| resp_status := JNumber (num 503); resp_headers := ∅;
         resp_body := Some (JObject {[ "error" := JNumber (num 42) ]}) |} ])
    as Hr by reflexivity.
  split; [exact Hr|].
  intros (st & h & s & _ & Hs). rewrite Hr in Hs.
  apply (f_equal (λ l, match l with
                       | [x] => match resp_body x with
                                | Some (JObject m) => m !! "error"
                                | _ => None
                                end
                       | _ => None
                       end)) in Hs.
  cbn [responses fresh app resp_body] in Hs.
  rewrite !lookup_singleton_eq in Hs. discriminate Hs.
Qed.

(** A [GET]. *)
Lemma handler_rejects_non_POST_witness :
  let r := handler env_key (λ _, Returns (JString "hello"))
             {| method := "GET"; body := JUndefined |} fresh in
  responds_once r fresh (JNumber (num 405))
    (<["Allow" := JArray [JString "POST"]]> (headers fresh))
    (Some (JObject {[ "error" := JString "Método no permitido" ]})) ∧
  headers r.2 !! "Allow" = Some (JArray [JString "POST"]) ∧
  calls r.2 = calls fresh.
Proof.
  apply (handler_rejects_non_POST env_key (λ _, Returns (JString "hello"))
           {| method := "GET"; body := JUndefined |} fresh).
  discriminate.
Defined.

(** The preflight of the exported function. *)
Lemma preflight_short_circuit_witness :
  let req := {| method := "OPTIONS"; body := JUndefined |} in
  endpoint env_key (λ _, Returns (JString "hello")) req fresh =
    (Normal (),
     {| headers := cors (headers fresh); statusCode := JNumber (num 200);
        responses := responses fresh ++
          [ {| resp_status := JNumber (num 200);
               resp_headers := cors (headers fresh); resp_body := None |} ];
        calls := calls fresh; console := console fresh |}) ∧
  has_cors (cors (headers fresh)) ∧
  (∀ fn', allowCors fn' req fresh =
          endpoint env_key (λ _, Returns (JString "hello")) req fresh).
Proof.
  intros req.
  apply (preflight_short_circuit
           (handler env_key (λ _, Returns (JString "hello"))) req fresh).
  reflexivity.
Defined.

(** [POST {}]. *)
Example handler_rejects_empty_object :
  let r := handler env_key (λ _, Returns (JString "hello"))
             {| method := "POST"; body := JObject ∅ |} fresh in
  responds_once r fresh (JNumber (num 400)) (headers fresh)
    (Some (JObject {[ "error" := JString
      ("El campo " +:+ dquote +:+ "prompt" +:+ dquote +:+ " es requerido.") ]})) ∧
  calls r.2 = calls fresh.
Proof.
  apply (handler_rejects_missing_prompt env_key (λ _, Returns (JString "hello"))
           {| method := "POST"; body := JObject ∅ |} fresh);
    [reflexivity | left; reflexivity].
Defined.

(** No [GOOGLE_API_KEY] in the environment. *)
Lemma handler_missing_credential_witness :
  let r := handler ∅ (λ _, Returns (JString "hello"))
             (post_prompt (JString "Hola")) fresh in
  responds_once r fresh (JNumber (num 500)) (headers fresh)
    (Some (JObject {[ "error" := JString "Error de configuración del servidor." ]})) ∧
  calls r.2 = calls fresh.
Proof.
  apply (handler_missing_credential ∅ (λ _, Returns (JString "hello"))
           (post_prompt (JString "Hola")) (JString "Hola") fresh);
    [reflexivity | reflexivity | reflexivity | left; reflexivity].
Defined.

(** The provider answers with the empty string. *)
Lemma handler_empty_text_witness :
  let r := handler env_key (λ _, Returns (JString EmptyString))
             (post_prompt (JString "Hola")) fresh in
  responds_once r fresh (JNumber (num 500)) (headers fresh)
    (Some (JObject {[ "error" := JString
       "No se recibió una respuesta textual válida del modelo." ]})) ∧
  calls r.2 = calls fresh ++ [generation (JString "secret") (JString "Hola")].
Proof.
  apply (handler_empty_text env_key (λ _, Returns (JString EmptyString))
           (post_prompt (JString "Hola")) (JString "Hola")
           (JString EmptyString) "secret" fresh);
    first [reflexivity | discriminate].
Defined.

(** [POST {prompt: 0}] is answered like [POST {}]. *)
Lemma prompt_validation_is_truthiness_witness :
  let sdk := λ _, Returns (JString "hello") in
  let r := handler env_key sdk (post_prompt (JNumber (num 0))) fresh in
  responds_once r fresh (JNumber (num 400)) (headers fresh)
    (Some (JObject {[ "error" := JString msg_prompt ]})) ∧
  calls r.2 = calls fresh ∧
  r = handler env_key sdk {| method := "POST"; body := JObject ∅ |} fresh.
Proof.
  intros sdk.
  destruct (prompt_validation_is_truthiness env_key sdk
              (post_prompt (JNumber (num 0))) (JNumber (num 0)) fresh
              eq_refl eq_refl) as (Hfalsy & _).
  apply Hfalsy. reflexivity.
Defined.

(** * Further properties of the exported function *)

(** Every decision of [allowCors] and [handler], one goal per path: the
    preflight, the 405, the throwing destructuring, the 400, the missing
    key (unset, then empty), the provider error, the text, the empty text
    and the provider that never settles. *)
Ltac endpoint_paths process_env sdk req :=
  unfold endpoint; rewrite allowCors_run;
  destruct (decide (method req = "OPTIONS")) as [Ho|Ho];
  [ | unfold handler;
      destruct (decide (method req ≠ "POST")) as [Hm|Hm];
      [ run_world
      | apply dec_stable in Hm; unfold destructure;
        destruct (GetV (body req) "prompt") as [p|] eqn:Hp;
        [ run_world; destruct (ToBoolean p) eqn:Ht; cbn [negb];
          [ unfold env;
            destruct (process_env !! "GOOGLE_API_KEY") as [[|c k]|] eqn:Hk;
            cbn [from_option ToBoolean negb];
            [ | unfold generateContent_text;
                cbn [fst snd headers statusCode responses calls console];
                destruct (sdk _) as [e|text|] eqn:Hsdk;
                [ rewrite on_error_run
                | destruct (ToBoolean text) eqn:Htext
                | ]
              | ]
          | ]
        | run_world ] ] ];
  cbn [fst snd headers statusCode responses calls console].

Section Further.

Variable process_env : gmap string string.
Variable sdk : GenerateContentRequest → ProviderOutcome.

(** X1.  With a provider whose errors give a status the runtime accepts,
    the exported function ends in one of three ways, whatever the request
    and the state of [res]: it sends one response and completes; or it
    sends none and throws, exactly on a [POST] whose body is [null] or
    [undefined]; or it sends none and stays suspended, exactly when the
    provider it asked never settles.  It never sends two. *)
Theorem endpoint_one_response_or_throw (req : Request) (w : World) :
  (∀ q e, sdk q = Throws e → sendable e) →
  let r := endpoint process_env sdk req w in
  let asked k p :=
    method req = "POST" ∧
    GetV (body req) "prompt" = Some p ∧ ToBoolean p = true ∧
    process_env !! "GOOGLE_API_KEY" = Some k ∧ k ≠ EmptyString in
  (r.1 = Normal () ∧
   (∃ resp, responses r.2 = responses w ++ [resp]) ∧
   (method req ≠ "POST" ∨ is_Some (GetV (body req) "prompt")) ∧
   (∀ k p, asked k p → sdk (generation (JString k) p) ≠ Pending)) ∨
  ((∃ e, r.1 = Throw e) ∧
   responses r.2 = responses w ∧
   method req = "POST" ∧ (body req = JNull ∨ body req = JUndefined)) ∨
  (r.1 = Suspended ∧
   responses r.2 = responses w ∧
   ∃ k p, asked k p ∧ sdk (generation (JString k) p) = Pending).
Proof.
  intros _. cbn zeta. endpoint_paths process_env sdk req.
  - left. repeat split; [by eexists | left; by rewrite Ho |].
    intros k' p' (Hpost & _). by rewrite Ho in Hpost.
  - left. repeat split; [by eexists | by left |]. by intros k' p' (Hpost & _).
  - left. repeat split; [by eexists | by right |].
    intros k' p' (_ & ? & _ & ? & ?). congruence.
  - left. repeat split; [by eexists | by right |].
    intros k' p' (_ & ? & _ & ? & ?). congruence.
  - left. repeat split; [by eexists | by right |].
    intros k' p' (_ & ? & _ & ? & ?). congruence.
  - left. repeat split; [by eexists | by right |].
    intros k' p' (_ & ? & _ & ? & ?). congruence.
  - right; right. repeat split; [done..|]. by eexists _, _.
  - left. repeat split; [by eexists | by right |].
    intros k' p' (_ & ? & _ & ? & ?). congruence.
  - left. repeat split; [by eexists | by right |].
    intros k' p' (_ & ? & ? & _). congruence.
  - right; left. split; [by eexists|]. split; [done|]. split; [done|].
    destruct (body req); try done; by eauto.
Qed.

(** X2.  The provider is asked at most once, and exactly when the request
    is a [POST] with a truthy prompt and the key is a non-empty string; what
    it is asked is that key, that prompt unchanged, and the fixed model,
    configuration and safety settings. *)
Theorem endpoint_provider_call (req : Request) (w : World) :
  let r := endpoint process_env sdk req w in
  (calls r.2 = calls w ∧
   ¬ (method req = "POST" ∧
      (∃ p, GetV (body req) "prompt" = Some p ∧ ToBoolean p = true) ∧
      (∃ k, process_env !! "GOOGLE_API_KEY" = Some k ∧ k ≠ EmptyString))) ∨
  (∃ k p,
     method req = "POST" ∧
     GetV (body req) "prompt" = Some p ∧ ToBoolean p = true ∧
     process_env !! "GOOGLE_API_KEY" = Some k ∧ k ≠ EmptyString ∧
     calls r.2 = calls w ++
       [ {| gc_apiKey := JString k; gc_model := "gemini-1.5-flash-latest";
            gc_text := p; gc_generationConfig := generationConfig;
            gc_safetySettings := safetySettings |} ]).
Proof.
  cbn zeta. endpoint_paths process_env sdk req;
    try (right; eexists _, _; by repeat split);
    left; (split; [done|]); intros (Hpost & (p' & Hp' & Ht') & (k' & Hk' & Hne')).
  - by rewrite Ho in Hpost.
  - done.
  - congruence.
  - congruence.
  - congruence.
  - congruence.
Qed.

(** X3.  Unless the provider throws an error that carries a response of
    its own, every status the exported function sends is one of 200, 400,
    401, 403, 405 and 500. *)
Theorem endpoint_status_codes (req : Request) :
  (∀ q e, sdk q = Throws e → carries_response e = false) →
  Forall (λ x, resp_status x ∈
            (JNumber ∘ num) <$> [200; 400; 401; 403; 405; 500]%Z)
         (responses (endpoint process_env sdk req fresh).2).
Proof.
  intros Hplain. endpoint_paths process_env sdk req;
    try (repeat constructor; fail).
  unfold normalized. rewrite (Hplain _ _ Hsdk).
  destruct (includes "API key not valid" _); [repeat constructor|].
  destruct (includes "Blocked reason" _); repeat constructor.
Qed.

(** X4.  Every response of the exported function is of one of three
    shapes: the bare 200 of the preflight, a 200 with the [candidates]
    object around a truthy text, or an object with the single property
    [error]. *)
Theorem endpoint_response_shapes (req : Request) (w : World) :
  let r := endpoint process_env sdk req w in
  Forall (λ x,
    (resp_status x = JNumber (num 200) ∧ resp_body x = None ∧
     method req = "OPTIONS") ∨
    (∃ text, ToBoolean text = true ∧
       resp_status x = JNumber (num 200) ∧
       resp_body x = Some (JObject {[ "candidates" :=
         JArray [ JObject {[ "content" :=
           JObject {[ "parts" :=
             JArray [ JObject {[ "text" := text ]} ] ]} ]} ] ]})) ∨
    (∃ m, resp_body x = Some (JObject {[ "error" := m ]})))
    (drop (length (responses w)) (responses r.2)).
Proof.
  cbn zeta. endpoint_paths process_env sdk req;
    rewrite ?drop_app_length, ?drop_all;
    first [ by apply Forall_nil_2
          | apply Forall_singleton; cbn [resp_status resp_body]; eauto 10 ].
Qed.

(** X5.  On a fresh [res], the exported function sets the four CORS
    headers and nothing else, except [Allow], which it sets exactly when
    the method is neither [POST] nor [OPTIONS]. *)
Theorem endpoint_headers (req : Request) :
  let r := endpoint process_env sdk req fresh in
  headers r.2 =
    if decide (method req = "POST" ∨ method req = "OPTIONS")
    then cors ∅
    else <["Allow" := JArray [JString "POST"]]> (cors ∅).
Proof.
  cbn zeta. endpoint_paths process_env sdk req;
    first [ rewrite decide_True by (first [by left | by right]); done
          | rewrite decide_False by (by intros [?|?]); done ].
Qed.

(** X6.  The console gets one line on each of three failures, and none
    on any other path: [console.error] with a fixed text when the key is
    missing, [console.warn] with a fixed text when the provider's text is
    falsy, and [console.error] with a fixed text and the error object, as
    thrown, when the provider throws on this request's call. *)
Theorem endpoint_console (req : Request) (w : World) :
  let r := endpoint process_env sdk req w in
  let validated p :=
    method req = "POST" ∧
    GetV (body req) "prompt" = Some p ∧ ToBoolean p = true in
  let keyed k := process_env !! "GOOGLE_API_KEY" = Some k ∧ k ≠ EmptyString in
  (console r.2 = console w ++
     [ (LogError, "Error: GOOGLE_API_KEY no está configurada.", None) ] ∧
   ∃ p, validated p ∧ ¬ ∃ k, keyed k) ∨
  (console r.2 = console w ++
     [ (LogWarn, "La respuesta de Gemini no contiene texto legible.", None) ] ∧
   ∃ p k text, validated p ∧ keyed k ∧
     sdk (generation (JString k) p) = Returns text ∧ ToBoolean text = false) ∨
  (∃ p k e, validated p ∧ keyed k ∧
     sdk (generation (JString k) p) = Throws e ∧
     console r.2 = console w ++
       [ (LogError, "Error al llamar a la API de Google Gemini con SDK:",
          Some e) ]) ∨
  (console r.2 = console w ∧
   ∀ p, validated p →
     ∃ k, keyed k ∧
       (sdk (generation (JString k) p) = Pending ∨
        ∃ text, sdk (generation (JString k) p) = Returns text ∧
                ToBoolean text = true)).
Proof.
  cbn zeta. endpoint_paths process_env sdk req.
  - do 3 right. split; [done|]. intros p' (Hpost & _). by rewrite Ho in Hpost.
  - do 3 right. split; [done|]. by intros p' (Hpost & _).
  - left. split; [done|]. exists p. split; [done|]. intros (k' & ? & ?). congruence.
  - right; right; left. by eexists p, _, e.
  - do 3 right. split; [done|]. intros p' (_ & ? & _).
    assert (p' = p) as -> by congruence. eexists. split; [done|]. right. eauto.
  - right; left. split; [done|]. by eexists p, _, text.
  - do 3 right. split; [done|]. intros p' (_ & ? & _).
    assert (p' = p) as -> by congruence. eexists. split; [done|]. by left.
  - left. split; [done|]. exists p. split; [done|]. intros (k' & ? & ?). congruence.
  - do 3 right. split; [done|]. intros p' (_ & ? & ?). congruence.
  - do 3 right. split; [done|]. intros p' (_ & ? & _). congruence.
Qed.

End Further.

(** X7.  The run is determined by the method, the [prompt] property of the
    body (or, when the body is [null] or [undefined], which of the two it
    is), the [GOOGLE_API_KEY] variable and the provider: the rest of the
    body and of the environment is never read. *)
Theorem endpoint_reads_only (env1 env2 : gmap string string)
    (sdk1 sdk2 : GenerateContentRequest → ProviderOutcome)
    (req1 req2 : Request) (w : World) :
  method req1 = method req2 →
  GetV (body req1) "prompt" = GetV (body req2) "prompt" →
  (GetV (body req1) "prompt" = None → body req1 = body req2) →
  env1 !! "GOOGLE_API_KEY" = env2 !! "GOOGLE_API_KEY" →
  (∀ q, sdk1 q = sdk2 q) →
  endpoint env1 sdk1 req1 w = endpoint env2 sdk2 req2 w.
Proof.
  intros Hmeth Hprompt Hbody Hkey Hprov.
  unfold endpoint. rewrite !allowCors_run, <- Hmeth.
  case_decide; [done|].
  unfold handler, destructure, env, generateContent_text.
  rewrite <- Hmeth, <- Hprompt, <- Hkey. case_decide; [done|].
  destruct (GetV (body req1) "prompt") as [p|]; [|by rewrite Hbody].
  run_world. destruct (ToBoolean p); cbn [negb]; [|done].
  destruct (ToBoolean _); cbn [negb]; [|done].
  by rewrite Hprov.
Qed.

(** X8.  The key goes to the provider and nowhere else: with two
    different non-empty keys, and a provider that answers both alike, the
    completion, the headers, the responses and the console are the same. *)
Theorem key_reaches_only_the_provider (env1 env2 : gmap string string)
    (sdk : GenerateContentRequest → ProviderOutcome) (k1 k2 : string)
    (req : Request) (w : World) :
  env1 !! "GOOGLE_API_KEY" = Some k1 → k1 ≠ EmptyString →
  env2 !! "GOOGLE_API_KEY" = Some k2 → k2 ≠ EmptyString →
  (∀ p, sdk (generation (JString k1) p) = sdk (generation (JString k2) p)) →
  let r1 := endpoint env1 sdk req w in
  let r2 := endpoint env2 sdk req w in
  r1.1 = r2.1 ∧ headers r1.2 = headers r2.2 ∧
  statusCode r1.2 = statusCode r2.2 ∧
  responses r1.2 = responses r2.2 ∧ console r1.2 = console r2.2.
Proof.
  intros Hk1 Hne1 Hk2 Hne2 Hsame. cbn zeta.
  unfold endpoint. rewrite !allowCors_run.
  case_decide; [done|].
  unfold handler, destructure, env, generateContent_text.
  rewrite Hk1, Hk2. case_decide; [done|].
  destruct (GetV (body req) "prompt") as [p|]; [|done].
  run_world. destruct (ToBoolean p); cbn [negb]; [|done].
  destruct k1 as [|c1 k1]; [done|]. destruct k2 as [|c2 k2]; [done|].
  cbn [from_option ToBoolean negb]. rewrite Hsame.
  cbn [fst snd headers statusCode responses calls console].
  destruct (sdk _) as [e|text|];
    [by rewrite !on_error_run | by destruct (ToBoolean text) | done].
Qed.

(** X9.  Wrapping twice is wrapping once: [allowCors (allowCors fn)] and
    [allowCors fn] run alike on every request, whatever [fn] is. *)
Theorem allowCors_twice (fn : Request → M unit) (req : Request) (w : World) :
  allowCors (allowCors fn) req w = allowCors fn req w.
Proof.
  rewrite !allowCors_run. case_decide; [done|].
  cbn [headers statusCode responses calls console].
  assert (cors (cors (headers w)) = cors (headers w)) as ->; [|done].
  apply map_eq. intros i. unfold cors.
  rewrite !lookup_insert. by repeat case_decide.
Qed.

(** ** Instances of the further properties *)

(** A provider that refuses the key: the status is among the six. *)
Lemma endpoint_status_codes_witness :
  let sdk := λ _, Throws {| message := "API key not valid";
                             response := JUndefined |} in
  Forall (λ x, resp_status x ∈
            (JNumber ∘ num) <$> [200; 400; 401; 403; 405; 500]%Z)
         (responses (endpoint env_key sdk (post_prompt (JString "Hola")) fresh).2).
Proof.
  intros sdk.
  apply (endpoint_status_codes env_key sdk (post_prompt (JString "Hola"))).
  intros q e [= <-]. reflexivity.
Defined.

(** Another property in the body and another variable in the
    environment change nothing. *)
Lemma endpoint_reads_only_witness :
  let sdk := λ _, Returns (JString "hello") in
  endpoint (<["HOME" := "/root"]> env_key) sdk
    {| method := "POST";
       body := JObject (<["lang" := JString "es"]> {[ "prompt" := JString "Hola" ]}) |}
    fresh =
  endpoint env_key sdk (post_prompt (JString "Hola")) fresh.
Proof.
  intros sdk.
  apply (endpoint_reads_only (<["HOME" := "/root"]> env_key) env_key sdk sdk
           {| method := "POST";
              body := JObject (<["lang" := JString "es"]>
                                 {[ "prompt" := JString "Hola" ]}) |}
           (post_prompt (JString "Hola")) fresh);
    [reflexivity | reflexivity | discriminate | reflexivity
    | intros q; reflexivity].
Defined.

(** Two keys, and a provider that echoes the prompt. *)
Lemma key_reaches_only_the_provider_witness :
  let sdk := λ q, Returns (gc_text q) in
  let r1 := endpoint env_key sdk (post_prompt (JString "Hola")) fresh in
  let r2 := endpoint {[ "GOOGLE_API_KEY" := "other" ]} sdk
              (post_prompt (JString "Hola")) fresh in
  r1.1 = r2.1 ∧ headers r1.2 = headers r2.2 ∧
  statusCode r1.2 = statusCode r2.2 ∧
  responses r1.2 = responses r2.2 ∧ console r1.2 = console r2.2.
Proof.
  intros sdk.
  apply (key_reaches_only_the_provider env_key {[ "GOOGLE_API_KEY" := "other" ]}
           sdk "secret" "other" (post_prompt (JString "Hola")) fresh);
    first [reflexivity | discriminate | intros p; reflexivity].
Defined.

(** A provider that answers 429 with a message of its own: one response. *)
Lemma endpoint_one_response_or_throw_witness :
  let e := {| message := "Request failed";
              response := JObject {[
                "data" := JObject {[ "error" :=
                            JObject {[ "message" := JString "Quota exceeded" ]} ]};
                "status" := JNumber (num 429) ]} |} in
  let r := endpoint env_key (λ _, Throws e) (post_prompt (JString "Hola")) fresh in
  r.1 = Normal () ∧ ∃ resp, responses r.2 = responses fresh ++ [resp].
Proof.
  intros e r.
  destruct (endpoint_one_response_or_throw env_key (λ _, Throws e)
              (post_prompt (JString "Hola")) fresh)
    as [(Hn & Hr & _)|[((e' & He') & _)|(Hs & _)]].
  - intros q e' [= <-] _ _. exists 429%Z. split; [lia | reflexivity].
  - by split.
  - discriminate He'.
  - discriminate Hs.
Defined.
